(** * mlat/solver.py: the multilateration solver

    A shallow embedding of [mlat/solver.py] (functions [_residuals] and
    [solve]) and the properties its specification states about it.

    Conventions of the embedding.
    - Python floats are idealised as exact rationals ([Q]): rounding,
      infinities and NaN are outside the model.  Comparisons and
      arithmetic are the exact ones.  A division is the division of
      Python floats: it raises [ZeroDivisionError] on a zero divisor.
      (Where the dividend is a numpy scalar, a zero divisor gives an
      infinity or NaN and a warning instead; this is outside the model.)
    - Python exceptions are values of [exn]; a computation that may raise
      returns an [outcome].
    - [solve] receives a reference to the caller's list of measurements.
      It is modelled in a state-and-exception monad whose state is the
      content of that list, so that what [solve] does to the list is
      visible in the model.
    - The collaborators that live outside [solver.py] ([mlat.geodesy],
      [mlat.constants], [mlat.config], [math.sqrt] on its domain and
      [scipy.optimize.minimize]) are parameters of the development. *)

From Stdlib Require Import QArith ZArith List String Bool Arith Lia Lqa.
Import ListNotations.

Local Open Scope Q_scope.

(** ** Exceptions and outcomes *)

Inductive exn : Type :=
| ValueError (msg : string)
| IndexError (msg : string)
| TypeError (msg : string)
| ZeroDivisionError (msg : string).

Inductive outcome (A : Type) : Type :=
| Ok (a : A)
| Raise (e : exn).

Arguments Ok {A} a.
Arguments Raise {A} e.

Definition obind {A B : Type} (c : outcome A) (k : A -> outcome B) : outcome B :=
  match c with
  | Ok a => k a
  | Raise e => Raise e
  end.

(** A [for] loop over a list whose body may raise: the body updates the
    loop's variables [s], and the first exception ends the loop. *)
Fixpoint for_each {A S : Type} (body : S -> A -> outcome S) (l : list A) (s : S)
    : outcome S :=
  match l with
  | [] => Ok s
  | a :: l' => obind (body s a) (fun s' => for_each body l' s')
  end.

(** A list comprehension whose element expression may raise: elements are
    evaluated from left to right and the first exception aborts it. *)
Fixpoint comprehension {A B : Type} (f : A -> outcome B) (l : list A) : outcome (list B) :=
  match l with
  | [] => Ok []
  | a :: l' =>
      obind (f a) (fun b => obind (comprehension f l') (fun bs => Ok (b :: bs)))
  end.

(** ** Data model *)

(** An ECEF position, and a (lat, lon, alt) geodetic position. *)
Definition ecef : Type := (Q * Q * Q)%type.
Definition llh : Type := (Q * Q * Q)%type.

(** The 4-vector the optimizer works on: [x, y, z, offset]. *)
Definition vec4 : Type := (Q * Q * Q * Q)%type.

(** A receiver object; the solver only reads its [position] attribute. *)
Record receiver : Type := mkReceiver { position : ecef }.

(** A measurement is the tuple (receiver, timestamp, variance). *)
Definition measurement : Type := (receiver * Q * Q)%type.

(** An element of [pseudorange_data]: (receiver position, pseudorange, error). *)
Definition datum : Type := (ecef * Q * Q)%type.

(** A two-dimensional array, row by row. *)
Definition matrix : Type := list (list Q).

(** The fields of [scipy.optimize.OptimizeResult] that [solve] reads. *)
Record OptimizeResult : Type := mkResult {
  success : bool;
  x : vec4;
  hess_inv : option matrix
}.

(** What [solve] returns when it returns: [None], or [(ecef, ecef_cov)]. *)
Definition solution : Type := option (ecef * option matrix).

(** ** The state-and-exception monad of [solve]

    The state is the content of the caller's [measurements] list. *)

Definition store : Type := list measurement.

Definition M (A : Type) : Type := store -> outcome A * store.

Definition ret {A : Type} (a : A) : M A := fun s => (Ok a, s).

Definition raise {A : Type} (e : exn) : M A := fun s => (Raise e, s).

Definition bind {A B : Type} (c : M A) (k : A -> M B) : M B :=
  fun s =>
    match c s with
    | (Ok a, s') => k a s'
    | (Raise e, s') => (Raise e, s')
    end.

(** A pure computation that may raise, run inside [M]. *)
Definition lift {A : Type} (c : outcome A) : M A := fun s => (c, s).

(** Reading the list object. *)
Definition read : M store := fun s => (Ok s, s).

(** Writing the list object (an in-place update such as [append] or
    [sort]).  Nothing in [solver.py] does this; it is part of the monad
    so that "leaves the list unchanged" is a property and not a typing
    accident. *)
Definition update (f : store -> store) : M unit := fun s => (Ok tt, f s).

Declare Scope solver_scope.
Delimit Scope solver_scope with solver.

Notation "v <- c ;; k" := (bind c (fun v => k))
  (at level 61, c at next level, right associativity) : solver_scope.
Notation "v <~ c ;; k" := (obind c (fun v => k))
  (at level 61, c at next level, right associativity) : solver_scope.

Local Open Scope solver_scope.

(** The value and the final state of a run. *)
Definition eval {A : Type} (c : M A) (s : store) : outcome A := fst (c s).
Definition exec {A : Type} (c : M A) (s : store) : store := snd (c s).

(** [len(measurements)] *)
Definition len_measurements : M nat :=
  ms <- read ;; ret (List.length ms).

(** [measurements[i]] for a non-negative [i] *)
Definition getitem_measurements (i : nat) : M measurement :=
  ms <- read ;;
  match nth_error ms i with
  | Some m => ret m
  | None => raise (IndexError "list index out of range")
  end.

(** ** Arithmetic helpers *)

(** [a < b] on floats, as a boolean. *)
Definition Qltb (a b : Q) : bool := if Qlt_le_dec a b then true else false.

(** [np.sum] of a one-dimensional array (0.0 for the empty array). *)
Definition np_sum (a : list Q) : Q := fold_left Qplus a 0.

(** [a ** 2] on an array: elementwise. *)
Definition np_square (a : list Q) : list Q := map (fun r => r ^ 2) a.

(** The starred unpacking [*position, offset = v] of a 4-vector [v]. *)
Definition unpack (v : vec4) : ecef * Q :=
  let '(px, py, pz, offset) := v in ((px, py, pz), offset).

(** The position part and the offset part of a 4-vector. *)
Definition position_of (v : vec4) : ecef := fst (unpack v).
Definition offset_of (v : vec4) : Q := snd (unpack v).

(** The components of a measurement: [m[0]], [m[1]], [m[2]]. *)
Definition receiver_of (m : measurement) : receiver := fst (fst m).
Definition timestamp_of (m : measurement) : Q := snd (fst m).
Definition variance_of (m : measurement) : Q := snd m.

(** [h[0:3, 0:3]]: rows 0..2, and of each the columns 0..2.  As in numpy,
    a slice that runs past the end of an axis stops at the end. *)
Definition slice_0_3 (h : matrix) : matrix := map (firstn 3) (firstn 3 h).

(** The entry [(i, j)] of a two-dimensional array, when it exists. *)
Definition entry (h : matrix) (i j : nat) : option Q :=
  match nth_error h i with
  | Some row => nth_error row j
  | None => None
  end.

(** The messages of the exceptions the solver can raise. *)
Definition not_enough : exn := ValueError "Not enough measurements available".
Definition math_domain_error : exn := ValueError "math domain error".
Definition div_by_none : exn :=
  TypeError "unsupported operand type(s) for /: 'float' and 'NoneType'".
Definition zero_division : exn := ZeroDivisionError "float division by zero".

(** [a / b] on floats. *)
Definition float_div (a b : Q) : outcome Q :=
  if Qeq_bool b 0 then Raise zero_division else Ok (a / b).

Section Solver.

(** *** Collaborators *)

(** [math.sqrt] on the non-negative numbers. *)
Variable sqrt : Q -> Q.

(** [constants.Cair]: the propagation speed of the signal, in m/s. *)
Variable Cair : Q.

(** [config.MIN_ALT], [config.MAX_ALT] (meters), [config.SOLVER_MAXFEV]. *)
Variable MIN_ALT MAX_ALT : Q.
Variable SOLVER_MAXFEV : Z.

(** [geodesy.ecef_distance], [geodesy.ecef2llh], [geodesy.llh2ecef]. *)
Variable ecef_distance : ecef -> ecef -> Q.
Variable ecef2llh : ecef -> llh.
Variable llh2ecef : llh -> ecef.

(** [scipy.optimize.minimize(fun, x0, args=..., method='BFGS',
    options={'maxiter': n})], given the objective (already applied to
    [args]), the start point and the iteration bound.  An exception
    raised by the objective propagates through it. *)
Variable minimize : (vec4 -> outcome Q) -> vec4 -> Z -> outcome OptimizeResult.

(** [math.sqrt(v)]: raises [ValueError] on a negative argument. *)
Definition math_sqrt (v : Q) : outcome Q :=
  if Qltb v 0 then Raise math_domain_error else Ok (sqrt v).

(** *** [_residuals] (solver.py, lines 39-58) *)

(** The body of the loop of lines 48-50: one [res.append(...)]. *)
Definition append_residual (position_guess : ecef) (offset : Q)
    (res : list Q) (d : datum) : outcome (list Q) :=
  let '(receiver_position, pseudorange, error) := d in
  let pseudorange_guess := ecef_distance receiver_position position_guess - offset in
  r <~ float_div (pseudorange - pseudorange_guess) error ;;
  Ok (res ++ [r]).

Definition _residuals (x_guess : vec4) (pseudorange_data : list datum)
    (altitude altitude_error : option Q) : outcome Q :=
  let '(position_guess, offset) := unpack x_guess in
  let res := [] in
  (* compute pseudoranges at the current guess vs. measured pseudorange *)
  res <~ for_each (append_residual position_guess offset) pseudorange_data res ;;
  (* compute altitude at the current guess vs. measured altitude *)
  res <~ match altitude with
         | Some altitude =>
             let '(_, _, altitude_guess) := ecef2llh position_guess in
             match altitude_error with
             | Some altitude_error =>
                 r <~ float_div (altitude - altitude_guess) altitude_error ;;
                 Ok (res ++ [r])
             | None => Raise div_by_none
             end
         | None => Ok res
         end ;;
  (* return the sum of squared residuals *)
  Ok (np_sum (np_square res)).

(** *** [solve] (solver.py, lines 62-131) *)

(** Lines 82-88: the altitude of the initial guess is brought into
    the configured band. *)
Definition clamp_initial_guess (initial_guess : ecef) : ecef :=
  let '(glat, glng, galt) := ecef2llh initial_guess in
  let '(galt, initial_guess) :=
    if Qltb galt MIN_ALT
    then (MIN_ALT, llh2ecef (glat, glng, MIN_ALT))
    else (galt, initial_guess) in
  let '(galt, initial_guess) :=
    if Qltb MAX_ALT galt
    then (MAX_ALT, llh2ecef (glat, glng, MAX_ALT))
    else (galt, initial_guess) in
  initial_guess.

(** Lines 91-94: the element expression of the list comprehension. *)
Definition pseudorange_datum (base_timestamp : Q) (m : measurement) : outcome datum :=
  let '(receiver, timestamp, variance) := m in
  sigma <~ math_sqrt variance ;;
  Ok (position receiver, (timestamp - base_timestamp) * Cair, sigma * Cair).

(** Lines 90-94: [base_timestamp] and [pseudorange_data]. *)
Definition pseudorange_converter : M (Q * list datum) :=
  first <- getitem_measurements 0 ;;
  let base_timestamp := timestamp_of first in
  measurements <- read ;;
  pseudorange_data <- lift (comprehension (pseudorange_datum base_timestamp) measurements) ;;
  ret (base_timestamp, pseudorange_data).

(** Line 95: the start point of the optimizer. *)
Definition make_x_guess (initial_guess : ecef) : vec4 :=
  let '(g0, g1, g2) := initial_guess in (g0, g1, g2, 0).

(** Lines 103-131: what [solve] makes of the optimizer's result. *)
Definition validate (res : OptimizeResult) : solution :=
  if success res then
    (* Solver found a result. Validate that it makes some sort of physical
       sense.  The literal 500e3 of the source is the number 500000. *)
    let '(position_est, offset_est) := unpack (x res) in
    if Qltb offset_est 0 || Qltb 500000 offset_est then
      (* implausible range offset to closest receiver *)
      None
    else
      match hess_inv res with
      | None => Some (position_est, None)
      | Some h => Some (position_est, Some (slice_0_3 h))
      end
  else
    (* Solver failed *)
    None.

(** The number of constraints counted at line 79. *)
Definition constraints (n : nat) (altitude : option Q) : nat :=
  (n + match altitude with None => 0 | Some _ => 1 end)%nat.

(** The decorator [profile.trackcpu] only measures the CPU time of the
    call; it is not modelled. *)
Definition solve (altitude altitude_error : option Q) (initial_guess : ecef) : M solution :=
  n <- len_measurements ;;
  if (constraints n altitude <? 4)%nat then
    raise not_enough
  else
    let initial_guess := clamp_initial_guess initial_guess in
    bp <- pseudorange_converter ;;
    let pseudorange_data := snd bp in
    let x_guess := make_x_guess initial_guess in
    res <- lift (minimize
                   (fun v => _residuals v pseudorange_data altitude altitude_error)
                   x_guess
                   SOLVER_MAXFEV) ;;
    ret (validate res).

(** *** The residual model in the words of the specification

    These definitions follow section 4.2 of the specification, not the
    code; [_residuals] is compared with them below. *)

(** The residual of one pseudorange datum: (measured - predicted) / sigma,
    where predicted = distance(receiver, position) - offset. *)
Definition pseudorange_residual (position : ecef) (offset : Q) (d : datum) : Q :=
  let '(receiver_position, measured_pseudorange, sigma) := d in
  let predicted_pseudorange := ecef_distance receiver_position position - offset in
  (measured_pseudorange - predicted_pseudorange) / sigma.

(** The geodetic height of a position. *)
Definition geodetic_height (position : ecef) : Q := snd (ecef2llh position).

(** The residual of the altitude: (altitude - predicted) / altitude_error. *)
Definition altitude_residual (position : ecef) (altitude altitude_error : Q) : Q :=
  (altitude - geodetic_height position) / altitude_error.

(** The residual vector: one residual per datum, in order, followed by the
    altitude residual when an altitude (with its error) is supplied. *)
Definition residual_vector (position : ecef) (offset : Q) (pseudorange_data : list datum)
    (altitude : option (Q * Q)) : list Q :=
  map (pseudorange_residual position offset) pseudorange_data ++
  match altitude with
  | Some (altitude, altitude_error) => [altitude_residual position altitude altitude_error]
  | None => []
  end.

(** The sum of the squares of a residual vector. *)
Definition sum_of_squares (residuals : list Q) : Q :=
  fold_right (fun r acc => r * r + acc) 0 residuals.

(** *** The converter in the words of the specification (sections 3, 4.1) *)

Definition datum_of (base_timestamp : Q) (m : measurement) : datum :=
  let '(receiver, timestamp, variance) := m in
  (position receiver, (timestamp - base_timestamp) * Cair, sqrt variance * Cair).

(** In the call [solve(measurements, altitude, altitude_error,
    initial_guess)] the optimizer is reached and hands back [res]. *)
Definition optimizer_returns (altitude altitude_error : option Q) (initial_guess : ecef)
    (measurements : store) (res : OptimizeResult) : Prop :=
  (4 <= constraints (List.length measurements) altitude)%nat /\
  exists base_timestamp pseudorange_data,
    eval pseudorange_converter measurements = Ok (base_timestamp, pseudorange_data) /\
    minimize (fun v => _residuals v pseudorange_data altitude altitude_error)
             (make_x_guess (clamp_initial_guess initial_guess))
             SOLVER_MAXFEV = Ok res.

(** *** Vocabulary for further properties *)

(** A datum is explained by a state when its measured pseudorange is the
    predicted one. *)
Definition explains (position : ecef) (offset : Q) (d : datum) : Prop :=
  let '(receiver_position, pseudorange, error) := d in
  pseudorange == ecef_distance receiver_position position - offset.

End Solver.

(** Two data that differ at most in how the pseudorange is written as a
    fraction. *)
Definition datum_equiv (d d' : datum) : Prop :=
  fst (fst d) = fst (fst d') /\ snd (fst d) == snd (fst d') /\ snd d = snd d'.

(** The same measurements on a clock that is [c] seconds ahead. *)
Definition shift_timestamps (c : Q) (measurements : store) : store :=
  map (fun m => (receiver_of m, timestamp_of m + c, variance_of m)) measurements.

(** An [n] x [n] array. *)
Definition square_of_size (n : nat) (h : matrix) : Prop :=
  List.length h = n /\ Forall (fun row => List.length row = n) h.

(** A symmetric array: the entries (i, j) and (j, i) are the same, or both
    missing. *)
Definition symmetric (h : matrix) : Prop :=
  forall i j, entry h i j = entry h j i.

(** ** An instance for evaluation

    A small, fully computable choice of the collaborators, used to run
    the solver on concrete inputs. *)

Module Sample.

(** Square root, exact on the squares of rationals. *)
Definition sqrt (v : Q) : Q :=
  let r := Qred v in Z.sqrt (Qnum r) # Pos.sqrt (Qden r).

(** Speed of light in air, m/s (vacuum speed over a refractive index of 1.0003). *)
Definition Cair : Q := 299792458 / 1.0003.

(** -1500 ft and 75000 ft, in meters. *)
Definition MIN_ALT : Q := -457.2.
Definition MAX_ALT : Q := 22860.

Definition SOLVER_MAXFEV : Z := 165.

(** Geodesy of a local level frame: the first two coordinates stand for
    latitude and longitude, the third is the distance from the centre. *)
Definition radius : Q := 6371000.

Definition ecef_distance (p0 p1 : ecef) : Q :=
  let '(x0, y0, z0) := p0 in
  let '(x1, y1, z1) := p1 in
  sqrt ((x0 - x1) ^ 2 + (y0 - y1) ^ 2 + (z0 - z1) ^ 2).

Definition ecef2llh (p : ecef) : llh :=
  let '(px, py, pz) := p in (px, py, pz - radius).

Definition llh2ecef (g : llh) : ecef :=
  let '(lat, lng, alt) := g in (lat, lng, alt + radius).

(** An optimizer that evaluates the objective once, at the start point,
    and then reports [r]. *)
Definition reporting (r : OptimizeResult)
    (f : vec4 -> outcome Q) (x0 : vec4) (maxiter : Z) : outcome OptimizeResult :=
  _ <~ f x0 ;; Ok r.

(** An optimizer that stays at the start point and reports success. *)
Definition staying (f : vec4 -> outcome Q) (x0 : vec4) (maxiter : Z) : outcome OptimizeResult :=
  _ <~ f x0 ;; Ok (mkResult true x0 None).

(** Four receivers around the origin of the local frame, on the ground. *)
Definition rx (px py : Q) : receiver := mkReceiver (px, py, radius).

Definition four : list measurement :=
  [ (rx 0 0, 0, 1e-12); (rx 3000 0, 1e-6, 1e-12);
    (rx 0 4000, 2e-6, 1e-12); (rx 3000 4000, 3e-6, 1e-12) ].

Definition three : list measurement := firstn 3 four.

(** The same four measurements, the third with a negative variance. *)
Definition four_negative : list measurement :=
  [ (rx 0 0, 0, 1e-12); (rx 3000 0, 1e-6, 1e-12);
    (rx 0 4000, 2e-6, -1e-12); (rx 3000 4000, 3e-6, 1e-12) ].

(** A 4x4 matrix with distinct entries. *)
Definition h4 : matrix :=
  [ [11; 12; 13; 14]; [21; 22; 23; 24]; [31; 32; 33; 34]; [41; 42; 43; 44] ].


(** [solve] with the collaborators above and the optimizer [minimize]. *)
Definition solve_with
    (minimize : (vec4 -> outcome Q) -> vec4 -> Z -> outcome OptimizeResult) :=
  solve sqrt Cair MIN_ALT MAX_ALT SOLVER_MAXFEV ecef_distance ecef2llh llh2ecef minimize.

(** An initial guess on the ground, and one at the centre of the frame. *)
Definition ground : ecef := (1500, 2000, radius).
Definition centre : ecef := (1500, 2000, 0).

(** Results an optimizer could report. *)
Definition early : OptimizeResult := mkResult true (1500, 2000, radius + 10000, -1) (Some h4).
Definition stalled : OptimizeResult := mkResult false (1500, 2000, radius + 10000, 7) (Some h4).
Definition good : OptimizeResult := mkResult true (1500, 2000, radius + 10000, 7) (Some h4).
Definition remote : OptimizeResult := mkResult true (1000000, 0, radius, 7) None.

(** A state and two data it explains exactly: the receivers are 4000 m
    and 5000 m away, and the offset is 10 m. *)
Definition fitted : vec4 := (0, 0, radius + 4000, 10).
Definition fitting : list datum :=
  [ ((0, 0, radius), 3990, 2); ((3000, 0, radius), 4990, 1) ].


(** A symmetric 4x4 matrix. *)
Definition s4 : matrix :=
  [ [11; 12; 13; 14]; [12; 22; 23; 24]; [13; 23; 33; 34]; [14; 24; 34; 44] ].

(** Results an optimizer could report, continued. *)
Definition late : OptimizeResult := mkResult true (1500, 2000, radius + 10000, 500001) None.
Definition balanced : OptimizeResult := mkResult true (1500, 2000, radius + 10000, 7) (Some s4).

End Sample.

(** ** Reasoning about runs *)

(** A computation is read-only when no run of it changes the list. *)
Definition read_only {A : Type} (c : M A) : Prop := forall s, exec c s = s.

Lemma read_only_ret {A : Type} (a : A) : read_only (ret a).
Proof. intro s; reflexivity. Qed.

Lemma read_only_raise {A : Type} (e : exn) : read_only (@raise A e).
Proof. intro s; reflexivity. Qed.

Lemma read_only_lift {A : Type} (c : outcome A) : read_only (lift c).
Proof. intro s; reflexivity. Qed.

Lemma read_only_read : read_only read.
Proof. intro s; reflexivity. Qed.

Lemma read_only_bind {A B : Type} (c : M A) (k : A -> M B) :
  read_only c -> (forall a, read_only (k a)) -> read_only (bind c k).
Proof.
  intros Hc Hk s. unfold exec, bind.
  specialize (Hc s). unfold exec in Hc.
  destruct (c s) as [[a | e] s']; simpl in Hc; subst s'.
  - apply Hk.
  - reflexivity.
Qed.

(** The monad does contain computations that are not read-only. *)
Lemma update_not_read_only : ~ read_only (update (fun s => Sample.four ++ s)).
Proof. intro H. specialize (H []). discriminate H. Qed.

Create HintDb frame.
#[local] Hint Resolve read_only_ret read_only_raise read_only_lift
  read_only_read : frame.

Ltac frame :=
  repeat (first [ solve [ auto with frame ] | apply read_only_bind; [ | intro ] ]).

Lemma read_only_len : read_only len_measurements.
Proof. unfold len_measurements. frame. Qed.

Lemma read_only_getitem (i : nat) : read_only (getitem_measurements i).
Proof.
  unfold getitem_measurements. apply read_only_bind; [ frame | intro ms ].
  destruct (nth_error ms i); frame.
Qed.

#[local] Hint Resolve read_only_len read_only_getitem : frame.

(** A read-only run is determined by its value. *)
Lemma run_read_only {A : Type} (c : M A) (s : store) :
  read_only c -> c s = (eval c s, s).
Proof.
  intro H. specialize (H s). unfold exec, eval in *.
  destruct (c s); simpl in *; subst; reflexivity.
Qed.

Lemma eval_bind {A B : Type} (c : M A) (k : A -> M B) (s : store) :
  read_only c ->
  eval (bind c k) s =
  match eval c s with
  | Ok a => eval (k a) s
  | Raise e => Raise e
  end.
Proof.
  intro H. unfold eval at 1. unfold bind. rewrite (run_read_only c s H).
  destruct (eval c s); reflexivity.
Qed.

Lemma Qltb_true (a b : Q) : Qltb a b = true <-> a < b.
Proof.
  unfold Qltb. destruct (Qlt_le_dec a b) as [H | H]; split; intro H'; auto.
  - discriminate.
  - exfalso. exact (Qle_not_lt _ _ H H').
Qed.

Lemma Qltb_false (a b : Q) : Qltb a b = false <-> b <= a.
Proof.
  unfold Qltb. destruct (Qlt_le_dec a b) as [H | H]; split; intro H'; auto.
  - discriminate.
  - exfalso. exact (Qle_not_lt _ _ H' H).
Qed.

(** Addition of rationals is associative and has 0 as unit on the nose
    (numerators and denominators are equal, not only the fractions). *)
Lemma Qplus_assoc_eq (a b c : Q) : a + (b + c) = (a + b) + c.
Proof.
  destruct a as [na da], b as [nb db], c as [nc dc]. unfold Qplus; simpl.
  f_equal.
  - rewrite !Pos2Z.inj_mul. ring.
  - apply Pos.mul_assoc.
Qed.

Lemma Qplus_0_l_eq (a : Q) : 0 + a = a.
Proof.
  destruct a as [na da]. unfold Qplus; simpl. f_equal. apply Z.mul_1_r.
Qed.

Lemma Qplus_0_r_eq (a : Q) : a + 0 = a.
Proof.
  destruct a as [na da]. unfold Qplus; simpl. f_equal.
  - rewrite Z.mul_1_r. apply Z.add_0_r.
  - apply Pos.mul_1_r.
Qed.

Lemma np_sum_from (l : list Q) (a : Q) :
  fold_left Qplus l a = a + fold_right Qplus 0 l.
Proof.
  revert a. induction l as [| r l IH]; intro a; simpl.
  - symmetry. apply Qplus_0_r_eq.
  - rewrite IH. symmetry. apply Qplus_assoc_eq.
Qed.

Lemma np_sum_square (l : list Q) : np_sum (np_square l) = sum_of_squares l.
Proof.
  unfold np_sum. rewrite np_sum_from, Qplus_0_l_eq.
  induction l as [| r l IH]; simpl; [ reflexivity | ].
  rewrite IH. reflexivity.
Qed.

Lemma Qsquare_nonneg (r : Q) : 0 <= r * r.
Proof.
  destruct r as [n d]. unfold Qle, Qmult; simpl.
  rewrite Z.mul_1_r. apply Z.square_nonneg.
Qed.

Lemma sum_of_squares_nonneg (l : list Q) : 0 <= sum_of_squares l.
Proof.
  induction l as [| r l IH]; simpl.
  - apply Qle_refl.
  - setoid_replace 0 with (0 + 0) by reflexivity.
    apply Qplus_le_compat; [ apply Qsquare_nonneg | exact IH ].
Qed.

Lemma entry_slice_0_3 (h : matrix) (i j : nat) :
  entry (slice_0_3 h) i j =
  if ((i <? 3) && (j <? 3))%nat then entry h i j else None.
Proof.
  unfold entry, slice_0_3. rewrite nth_error_map, nth_error_firstn.
  destruct (i <? 3)%nat; [ | reflexivity ].
  destruct (nth_error h i) as [row |]; cbn [option_map andb].
  - apply nth_error_firstn.
  - destruct (j <? 3)%nat; reflexivity.
Qed.

Lemma float_div_ok (a b : Q) : ~ b == 0 -> float_div a b = Ok (a / b).
Proof.
  intro Hb. unfold float_div. destruct (Qeq_bool b 0) eqn:E; [ | reflexivity ].
  apply Qeq_bool_iff in E. contradiction.
Qed.

Lemma float_div_zero (a b : Q) : b == 0 -> float_div a b = Raise zero_division.
Proof.
  intro Hb. unfold float_div. apply Qeq_bool_iff in Hb. rewrite Hb. reflexivity.
Qed.

Lemma float_div_raise (a b : Q) (e : exn) :
  float_div a b = Raise e -> e = zero_division /\ b == 0.
Proof.
  unfold float_div. destruct (Qeq_bool b 0) eqn:E; intro H; inversion H.
  split; [ reflexivity | apply Qeq_bool_iff; exact E ].
Qed.


Section Properties.

Variable sqrt : Q -> Q.
Variable Cair : Q.
Variable MIN_ALT MAX_ALT : Q.
Variable SOLVER_MAXFEV : Z.
Variable ecef_distance : ecef -> ecef -> Q.
Variable ecef2llh : ecef -> llh.
Variable llh2ecef : llh -> ecef.
Variable minimize : (vec4 -> outcome Q) -> vec4 -> Z -> outcome OptimizeResult.

Local Abbreviation residuals_ := (_residuals ecef_distance ecef2llh).
Local Abbreviation clamp_ := (clamp_initial_guess MIN_ALT MAX_ALT ecef2llh llh2ecef).
Local Abbreviation converter_ := (pseudorange_converter sqrt Cair).
Local Abbreviation solve_ :=
  (solve sqrt Cair MIN_ALT MAX_ALT SOLVER_MAXFEV ecef_distance ecef2llh llh2ecef minimize).
Local Abbreviation optimizer_returns_ :=
  (optimizer_returns sqrt Cair MIN_ALT MAX_ALT SOLVER_MAXFEV ecef_distance ecef2llh
     llh2ecef minimize).

(** *** What can be raised, and where *)

Lemma math_sqrt_raise (v : Q) (e : exn) :
  math_sqrt sqrt v = Raise e -> e = math_domain_error.
Proof.
  unfold math_sqrt. destruct (Qltb v 0); intro H; inversion H; reflexivity.
Qed.

Lemma pseudorange_datum_raise (base : Q) (m : measurement) (e : exn) :
  pseudorange_datum sqrt Cair base m = Raise e -> e = math_domain_error.
Proof.
  destruct m as [[r t] v]. unfold pseudorange_datum, obind.
  destruct (math_sqrt sqrt v) eqn:E; intro H; inversion H; subst.
  eapply math_sqrt_raise; eauto.
Qed.

Lemma comprehension_raise {A B : Type} (f : A -> outcome B) (l : list A) (e : exn) :
  comprehension f l = Raise e -> exists a, In a l /\ f a = Raise e.
Proof.
  induction l as [| a l IH]; simpl; intro H.
  - discriminate.
  - destruct (f a) as [b | e'] eqn:Ea; simpl in H.
    + destruct (comprehension f l) as [bs | e'']; simpl in H; inversion H; subst.
      destruct (IH eq_refl) as [a' [Hin Ha']]. exists a'; auto.
    + inversion H; subst. exists a; auto.
Qed.

Lemma for_each_append_residual (position : ecef) (offset : Q) (d : list datum)
    (res : list Q) :
  Forall (fun d => ~ snd d == 0) d ->
  for_each (append_residual ecef_distance position offset) d res =
  Ok (res ++ map (pseudorange_residual ecef_distance position offset) d).
Proof.
  intro H. revert res. induction H as [| [[rp pr] sigma] d Hs _ IH]; intro res; simpl.
  - rewrite app_nil_r. reflexivity.
  - simpl in Hs. rewrite (float_div_ok _ _ Hs). simpl.
    rewrite IH, <- app_assoc. reflexivity.
Qed.

Lemma for_each_append_raise (position : ecef) (offset : Q) (d : list datum)
    (res : list Q) (e : exn) :
  for_each (append_residual ecef_distance position offset) d res = Raise e ->
  e = zero_division /\ Exists (fun d => snd d == 0) d.
Proof.
  revert res. induction d as [| [[rp pr] sigma] d IH]; intro res; simpl.
  - discriminate.
  - destruct (float_div _ sigma) as [r | e'] eqn:Hd; simpl.
    + intro H. destruct (IH _ H) as [He Hex]. split; [ exact He | ].
      apply Exists_cons_tl. exact Hex.
    + intro H. inversion H; subst e'. apply float_div_raise in Hd.
      destruct Hd as [He Hz]. split; [ exact He | ].
      apply Exists_cons_hd. exact Hz.
Qed.

(** What the objective can raise, and when. *)
Lemma residuals_raise_cases (v : vec4) (d : list datum) (a ae : option Q) (e : exn) :
  residuals_ v d a ae = Raise e ->
  (e = zero_division /\ Exists (fun d => snd d == 0) d) \/
  (e = div_by_none /\ a <> None /\ ae = None) \/
  (e = zero_division /\ a <> None /\ exists z, ae = Some z /\ z == 0).
Proof.
  unfold _residuals. destruct (unpack v) as [p off].
  destruct (for_each _ d []) as [res | e'] eqn:Hloop; cbn [obind].
  - destruct a as [a |]; [ | discriminate ].
    destruct (ecef2llh p) as [[lat lng] alt]. destruct ae as [ae |].
    + destruct (float_div (a - alt) ae) as [r | e'] eqn:Hd; cbn [obind]; [ discriminate | ].
      intro H. inversion H; subst e'. apply float_div_raise in Hd. destruct Hd as [He Hz].
      right; right. split; [ exact He | ]. split; [ discriminate | ]. exists ae. auto.
    + cbn [obind]. intro H. inversion H. right; left. repeat split. discriminate.
  - intro H. inversion H; subst e'. left. eapply for_each_append_raise; eauto.
Qed.

Lemma residuals_raise (v : vec4) (d : list datum) (a ae : option Q) (e : exn) :
  residuals_ v d a ae = Raise e -> e = div_by_none \/ e = zero_division.
Proof.
  intro H. apply residuals_raise_cases in H.
  destruct H as [[He _] | [[He _] | [He _]]]; auto.
Qed.

(** The objective returns a number when no divisor is zero or missing. *)
Lemma residuals_returns (v : vec4) (d : list datum) (a ae : option Q) :
  Forall (fun d => ~ snd d == 0) d ->
  a = None \/ (exists z, ae = Some z /\ ~ z == 0) ->
  exists r, residuals_ v d a ae = Ok r.
Proof.
  intros Hd H. unfold _residuals. destruct (unpack v) as [p off].
  rewrite (for_each_append_residual _ _ _ _ Hd). cbn [obind].
  destruct a as [a |].
  - destruct (ecef2llh p) as [[lat lng] alt].
    destruct H as [H | [z [Hz Hnz]]]; [ discriminate | ]. subst ae.
    rewrite (float_div_ok _ _ Hnz). cbn [obind]. eauto.
  - cbn [obind]. eauto.
Qed.

(** *** The shape of a run of [solve] *)

Lemma read_only_converter : read_only converter_.
Proof.
  unfold pseudorange_converter. frame.
Qed.

Lemma eval_converter (measurements : store) :
  eval converter_ measurements =
  match measurements with
  | [] => Raise (IndexError "list index out of range")
  | first :: _ =>
      let base_timestamp := timestamp_of first in
      match comprehension (pseudorange_datum sqrt Cair base_timestamp) measurements with
      | Ok pseudorange_data => Ok (base_timestamp, pseudorange_data)
      | Raise e => Raise e
      end
  end.
Proof.
  unfold pseudorange_converter. rewrite eval_bind by apply read_only_getitem.
  unfold getitem_measurements. rewrite eval_bind by apply read_only_read.
  change (eval read measurements) with (Ok (A := store) measurements). cbv beta iota.
  destruct measurements as [| first rest]; [ reflexivity | ].
  cbn [nth_error].
  change (eval (ret first) (first :: rest)) with (Ok (A := measurement) first).
  cbv beta iota zeta.
  rewrite eval_bind by apply read_only_read.
  change (eval read (first :: rest)) with (Ok (A := store) (first :: rest)). cbv beta iota.
  rewrite eval_bind by apply read_only_lift.
  unfold eval at 1, lift. cbn [fst].
  destruct (comprehension _ (first :: rest)); reflexivity.
Qed.

Lemma read_only_solve (altitude altitude_error : option Q) (initial_guess : ecef) :
  read_only (solve_ altitude altitude_error initial_guess).
Proof.
  unfold solve. apply read_only_bind; [ frame | intro n ].
  destruct (constraints n altitude <? 4)%nat.
  - frame.
  - apply read_only_bind; [ apply read_only_converter | intro bp ]. frame.
Qed.

Lemma eval_solve (altitude altitude_error : option Q) (initial_guess : ecef)
    (measurements : store) :
  eval (solve_ altitude altitude_error initial_guess) measurements =
  if (constraints (List.length measurements) altitude <? 4)%nat then Raise not_enough
  else
    match eval converter_ measurements with
    | Raise e => Raise e
    | Ok bp =>
        match minimize (fun v => residuals_ v (snd bp) altitude altitude_error)
                       (make_x_guess (clamp_ initial_guess)) SOLVER_MAXFEV with
        | Raise e => Raise e
        | Ok res => Ok (validate res)
        end
    end.
Proof.
  unfold solve. rewrite eval_bind by apply read_only_len.
  change (eval len_measurements measurements) with (Ok (A := nat) (List.length measurements)).
  cbv beta iota.
  destruct (constraints (List.length measurements) altitude <? 4)%nat; [ reflexivity | ].
  rewrite eval_bind by apply read_only_converter.
  destruct (eval converter_ measurements) as [bp | e]; [ | reflexivity ].
  rewrite eval_bind by apply read_only_lift.
  unfold eval at 1, lift. simpl.
  destruct (minimize _ _ _); reflexivity.
Qed.

Lemma eval_solve_returns (altitude altitude_error : option Q) (initial_guess : ecef)
    (measurements : store) (res : OptimizeResult) :
  optimizer_returns_ altitude altitude_error initial_guess measurements res ->
  eval (solve_ altitude altitude_error initial_guess) measurements = Ok (validate res).
Proof.
  intros [Hn [base [data [Hc Hm]]]]. rewrite eval_solve.
  apply Nat.ltb_ge in Hn. rewrite Hn, Hc. simpl. rewrite Hm. reflexivity.
Qed.

(** *** The input check *)

(** C1: [solve] raises the error of its input check,
    [ValueError('Not enough measurements available')], if and only if the
    number of measurements plus one for a supplied altitude is less than
    4, whatever the measurements contain.  The optimizer is assumed to
    raise nothing of its own: an exception that leaves it was raised by
    the objective. *)
Theorem solve_not_enough_iff :
  (forall f x0 n e, minimize f x0 n = Raise e -> exists v, f v = Raise e) ->
  forall (altitude altitude_error : option Q) (initial_guess : ecef) (measurements : store),
    eval (solve_ altitude altitude_error initial_guess) measurements = Raise not_enough <->
    (List.length measurements + match altitude with None => 0 | Some _ => 1 end < 4)%nat.
Proof.
  intros Hmin altitude altitude_error initial_guess measurements.
  rewrite eval_solve.
  change (List.length measurements + match altitude with None => 0 | Some _ => 1 end)%nat
    with (constraints (List.length measurements) altitude).
  destruct (constraints (List.length measurements) altitude <? 4)%nat eqn:Hn.
  - apply Nat.ltb_lt in Hn. split; auto.
  - apply Nat.ltb_ge in Hn. split; [ | lia ]. intro H. exfalso.
    destruct (eval converter_ measurements) as [bp | e] eqn:Hc.
    + destruct (minimize _ _ _) as [res | e] eqn:Hm; [ discriminate | ].
      destruct (Hmin _ _ _ _ Hm) as [v Hv].
      apply residuals_raise in Hv. inversion H; subst.
      destruct Hv; discriminate.
    + inversion H; subst e. clear H. rewrite eval_converter in Hc.
      destruct measurements as [| first rest]; [ discriminate | ].
      cbv zeta in Hc.
      destruct (comprehension _ (first :: rest)) as [data | e] eqn:Hd; [ discriminate | ].
      inversion Hc; subst e.
      apply comprehension_raise in Hd. destruct Hd as [m [_ Hm]].
      apply pseudorange_datum_raise in Hm. discriminate.
Qed.

(** *** The result validator *)

(** C2: when the optimizer reports success with an offset estimate below
    0 or above 500000, [solve] returns [None]. *)
Theorem solve_rejects_implausible_offset :
  forall (altitude altitude_error : option Q) (initial_guess : ecef)
         (measurements : store) (res : OptimizeResult),
    optimizer_returns_ altitude altitude_error initial_guess measurements res ->
    success res = true ->
    offset_of (x res) < 0 \/ 500000 < offset_of (x res) ->
    eval (solve_ altitude altitude_error initial_guess) measurements = Ok None.
Proof.
  intros altitude altitude_error initial_guess measurements res Hret Hs Hoff.
  rewrite (eval_solve_returns _ _ _ _ _ Hret). f_equal.
  unfold validate. rewrite Hs. unfold offset_of in Hoff.
  destruct (unpack (x res)) as [position_est offset_est]. simpl in Hoff.
  destruct Hoff as [H | H]; apply Qltb_true in H; rewrite H.
  - reflexivity.
  - rewrite orb_true_r. reflexivity.
Qed.

(** C7: when the input check is passed and the optimizer does not report
    success, [solve] returns [None]; it raises nothing. *)
Theorem solve_none_when_not_converged :
  forall (altitude altitude_error : option Q) (initial_guess : ecef)
         (measurements : store) (res : OptimizeResult),
    optimizer_returns_ altitude altitude_error initial_guess measurements res ->
    success res = false ->
    eval (solve_ altitude altitude_error initial_guess) measurements = Ok None.
Proof.
  intros altitude altitude_error initial_guess measurements res Hret Hs.
  rewrite (eval_solve_returns _ _ _ _ _ Hret).
  unfold validate. rewrite Hs. reflexivity.
Qed.

Lemma validate_accepted (res : OptimizeResult) :
  success res = true ->
  0 <= offset_of (x res) <= 500000 ->
  validate res =
  Some (position_of (x res),
        match hess_inv res with
        | None => None
        | Some h => Some (slice_0_3 h)
        end).
Proof.
  intros Hs [Hlo Hhi]. unfold validate, position_of, offset_of in *. rewrite Hs.
  destruct (unpack (x res)) as [position_est offset_est]. simpl in *.
  apply Qltb_false in Hlo, Hhi. rewrite Hlo, Hhi. simpl.
  destruct (hess_inv res); reflexivity.
Qed.

(** C8: the range of the offset is the only acceptance test.  A converged
    result whose offset estimate lies in [0, 500000] is returned as a
    solution at the estimated position, whatever the receivers, the
    distance function and the estimated position are: no distance from the
    estimate to a receiver enters the decision. *)
Theorem solve_accepts_plausible_offset :
  forall (altitude altitude_error : option Q) (initial_guess : ecef)
         (measurements : store) (res : OptimizeResult),
    optimizer_returns_ altitude altitude_error initial_guess measurements res ->
    success res = true ->
    0 <= offset_of (x res) <= 500000 ->
    exists ecef_cov,
      eval (solve_ altitude altitude_error initial_guess) measurements =
      Ok (Some (position_of (x res), ecef_cov)).
Proof.
  intros altitude altitude_error initial_guess measurements res Hret Hs Hoff.
  rewrite (eval_solve_returns _ _ _ _ _ Hret).
  rewrite (validate_accepted res Hs Hoff). eauto.
Qed.

(** *** The covariance extractor *)

(** C6: for an accepted result (converged, offset in [0, 500000]), [solve]
    returns the estimated position with no covariance when the optimizer
    gave no inverse Hessian, and otherwise with the leading 3x3 block of
    the inverse Hessian: the entry (i, j) of the covariance is the entry
    (i, j) of the inverse Hessian for i, j < 3, and the covariance has no
    other entry. *)
Theorem solve_covariance :
  forall (altitude altitude_error : option Q) (initial_guess : ecef)
         (measurements : store) (res : OptimizeResult),
    optimizer_returns_ altitude altitude_error initial_guess measurements res ->
    success res = true ->
    0 <= offset_of (x res) <= 500000 ->
    match hess_inv res with
    | None =>
        eval (solve_ altitude altitude_error initial_guess) measurements =
        Ok (Some (position_of (x res), None))
    | Some h =>
        exists cov,
          eval (solve_ altitude altitude_error initial_guess) measurements =
          Ok (Some (position_of (x res), Some cov)) /\
          forall i j,
            entry cov i j = if ((i <? 3) && (j <? 3))%nat then entry h i j else None
    end.
Proof.
  intros altitude altitude_error initial_guess measurements res Hret Hs Hoff.
  rewrite (eval_solve_returns _ _ _ _ _ Hret).
  rewrite (validate_accepted res Hs Hoff).
  destruct (hess_inv res) as [h |]; [ | reflexivity ].
  exists (slice_0_3 h). split; [ reflexivity | apply entry_slice_0_3 ].
Qed.

(** *** The caller's list *)

(** C9: no call of [solve] changes the caller's list of measurements or
    any of its entries, whether it returns or raises. *)
Theorem solve_leaves_measurements :
  forall (altitude altitude_error : option Q) (initial_guess : ecef) (measurements : store),
    exec (solve_ altitude altitude_error initial_guess) measurements = measurements.
Proof.
  intros altitude altitude_error initial_guess measurements.
  apply read_only_solve.
Qed.

(** *** The initial-guess clamp *)


(** *** The start point *)


(** *** The residual model *)

(** C3 (amended): when no datum has a zero sigma, the objective returns
    the sum of the squares of the residuals: one residual (measured -
    (distance(receiver, position) - offset)) / sigma per datum, and,
    exactly when an altitude is supplied (with an altitude error that is
    not zero), one more, (altitude - height(position)) / altitude_error.
    The sum is never negative. *)
Theorem residuals_sum_of_squares :
  forall (state : vec4) (pseudorange_data : list datum),
    Forall (fun d => ~ snd d == 0) pseudorange_data ->
    let position := position_of state in
    let offset := offset_of state in
    let residuals := residual_vector ecef_distance ecef2llh position offset pseudorange_data in
    (forall altitude_error : option Q,
        residuals_ state pseudorange_data None altitude_error =
        Ok (sum_of_squares (residuals None))) /\
    (forall altitude altitude_error : Q,
        ~ altitude_error == 0 ->
        residuals_ state pseudorange_data (Some altitude) (Some altitude_error) =
        Ok (sum_of_squares (residuals (Some (altitude, altitude_error))))) /\
    (forall altitude : option (Q * Q),
        List.length (residuals altitude) =
        (List.length pseudorange_data + match altitude with None => 0 | Some _ => 1 end)%nat /\
        0 <= sum_of_squares (residuals altitude)).
Proof.
  intros state pseudorange_data Hsig position offset residuals.
  subst position offset residuals.
  unfold _residuals, residual_vector, position_of, offset_of.
  destruct (unpack state) as [position offset]. cbn [fst snd].
  rewrite (for_each_append_residual _ _ _ _ Hsig). cbn [app obind].
  repeat split.
  - intro altitude_error. rewrite np_sum_square, app_nil_r. reflexivity.
  - intros altitude altitude_error He.
    unfold altitude_residual, geodetic_height.
    destruct (ecef2llh position) as [[lat lng] alt]. cbn [snd].
    rewrite (float_div_ok _ _ He). cbn [obind].
    rewrite np_sum_square. reflexivity.
  - rewrite length_app, length_map. destruct altitude as [[a ae] |]; reflexivity.
  - apply sum_of_squares_nonneg.
Qed.

(** *** The pseudorange converter *)

Lemma comprehension_datum (base : Q) (l : list measurement) :
  Forall (fun m => 0 <= variance_of m) l ->
  comprehension (pseudorange_datum sqrt Cair base) l = Ok (map (datum_of sqrt Cair base) l).
Proof.
  induction 1 as [| [[r t] v] l Hv _ IH]; simpl.
  - reflexivity.
  - unfold math_sqrt. simpl in Hv. apply Qltb_false in Hv. rewrite Hv. simpl.
    rewrite IH. reflexivity.
Qed.

(** C4 (amended): for a non-empty list of measurements whose variances
    are not negative, the converter yields the timestamp of the first
    measurement as [base_timestamp] and one datum per measurement, in the
    order of the list: (receiver position, (timestamp - base_timestamp) *
    Cair, sqrt(variance) * Cair). *)
Theorem converter_in_order :
  forall (first : measurement) (rest : list measurement),
    Forall (fun m => 0 <= variance_of m) (first :: rest) ->
    let base_timestamp := timestamp_of first in
    eval converter_ (first :: rest) =
    Ok (base_timestamp, map (datum_of sqrt Cair base_timestamp) (first :: rest)).
Proof.
  intros first rest Hvar base_timestamp. rewrite eval_converter. cbv zeta.
  fold base_timestamp. rewrite (comprehension_datum base_timestamp _ Hvar). reflexivity.
Qed.

End Properties.

(** ** Runs on concrete inputs *)

Example run_four :
  eval (Sample.solve_with Sample.staying None None Sample.ground) Sample.four
  = Ok (Some (Sample.ground, None)).
Proof. reflexivity. Qed.

Example run_three :
  eval (Sample.solve_with Sample.staying None None Sample.ground) Sample.three
  = Raise (ValueError "Not enough measurements available").
Proof. reflexivity. Qed.

Example run_three_with_altitude :
  eval (Sample.solve_with Sample.staying (Some 10000) (Some 50) Sample.ground) Sample.three
  = Ok (Some (Sample.ground, None)).
Proof. reflexivity. Qed.

Example run_altitude_without_error :
  eval (Sample.solve_with Sample.staying (Some 10000) None Sample.ground) Sample.three
  = Raise div_by_none.
Proof. reflexivity. Qed.

Example run_zero_altitude_error :
  eval (Sample.solve_with Sample.staying (Some 10000) (Some 0) Sample.ground) Sample.three
  = Raise (ZeroDivisionError "float division by zero").
Proof. reflexivity. Qed.

Example run_empty_with_altitude :
  Sample.solve_with Sample.staying (Some 10000) (Some 50) Sample.ground []
  = (Raise not_enough, []).
Proof. reflexivity. Qed.

Example run_from_centre :
  eval (Sample.solve_with Sample.staying None None Sample.centre) Sample.four
  = Ok (Some ((1500, 2000, -457.2 + 6371000), None)).
Proof. reflexivity. Qed.

Example clamp_above :
  clamp_initial_guess Sample.MIN_ALT Sample.MAX_ALT Sample.ecef2llh Sample.llh2ecef
    (1500, 2000, Sample.radius + 30000)
  = (1500, 2000, 22860 + 6371000).
Proof. reflexivity. Qed.

Example clamp_inside :
  clamp_initial_guess Sample.MIN_ALT Sample.MAX_ALT Sample.ecef2llh Sample.llh2ecef
    (1500, 2000, Sample.radius + 10000)
  = (1500, 2000, Sample.radius + 10000).
Proof. reflexivity. Qed.

(** Two receivers at 4000 m and 5000 m from the guess, measured
    pseudoranges 12 and 5 with errors 2 and 1, altitude 5000 against a
    guess at 4000 with error 10: ((12 - 4000) / 2)^2 + (5 - 5000)^2 + 100^2. *)
Example residuals_value :
  obind (_residuals Sample.ecef_distance Sample.ecef2llh
           (0, 0, Sample.radius + 4000, 0)
           [ ((0, 0, Sample.radius), 12, 2); ((3000, 0, Sample.radius), 5, 1) ]
           (Some 5000) (Some 10))
        (fun v => Ok (Qred v))
  = Ok 28936061.
Proof. reflexivity. Qed.

Example slice_h4 :
  slice_0_3 Sample.h4 = [ [11; 12; 13]; [21; 22; 23]; [31; 32; 33] ].
Proof. reflexivity. Qed.

Example slice_short : slice_0_3 [ [1; 2]; [3; 4] ] = [ [1; 2]; [3; 4] ].
Proof. reflexivity. Qed.

(** ** The statements at concrete inputs *)

Lemma staying_propagates :
  forall f x0 n e, Sample.staying f x0 n = Raise e -> exists v, f v = Raise e.
Proof.
  intros f x0 n e. unfold Sample.staying, obind.
  destruct (f x0) eqn:E; intro H; inversion H; subst. exists x0; assumption.
Qed.

Lemma reporting_returns (r : OptimizeResult) (altitude altitude_error : option Q)
    (initial_guess : ecef) :
  altitude = None \/ (exists z, altitude_error = Some z /\ ~ z == 0) ->
  optimizer_returns Sample.sqrt Sample.Cair Sample.MIN_ALT Sample.MAX_ALT
    Sample.SOLVER_MAXFEV Sample.ecef_distance Sample.ecef2llh Sample.llh2ecef
    (Sample.reporting r) altitude altitude_error initial_guess Sample.four r.
Proof.
  intro Hae. split.
  - unfold constraints. simpl. lia.
  - exists 0, (map (datum_of Sample.sqrt Sample.Cair 0) Sample.four).
    split.
    { rewrite eval_converter. unfold Sample.four. cbv zeta. cbn [fst snd].
      rewrite comprehension_datum by (repeat constructor; discriminate).
      reflexivity. }
    unfold Sample.reporting.
    destruct (residuals_returns Sample.ecef_distance Sample.ecef2llh
                (make_x_guess (clamp_initial_guess Sample.MIN_ALT Sample.MAX_ALT
                   Sample.ecef2llh Sample.llh2ecef initial_guess))
                (map (datum_of Sample.sqrt Sample.Cair 0) Sample.four)
                altitude altitude_error
                ltac:(repeat constructor; intro Hz; vm_compute in Hz; discriminate Hz)
                Hae) as [r0 Hr0].
    rewrite Hr0. reflexivity.
Qed.

Lemma solve_not_enough_iff_witness :
  (eval (Sample.solve_with Sample.staying None None Sample.ground) Sample.three
     = Raise not_enough <-> (3 + 0 < 4)%nat) /\
  (eval (Sample.solve_with Sample.staying (Some 1000) (Some 50) Sample.ground) Sample.three
     = Raise not_enough <-> (3 + 1 < 4)%nat).
Proof.
  split.
  - exact (solve_not_enough_iff Sample.sqrt Sample.Cair Sample.MIN_ALT Sample.MAX_ALT
             Sample.SOLVER_MAXFEV Sample.ecef_distance Sample.ecef2llh Sample.llh2ecef
             Sample.staying staying_propagates None None Sample.ground Sample.three).
  - exact (solve_not_enough_iff Sample.sqrt Sample.Cair Sample.MIN_ALT Sample.MAX_ALT
             Sample.SOLVER_MAXFEV Sample.ecef_distance Sample.ecef2llh Sample.llh2ecef
             Sample.staying staying_propagates (Some 1000) (Some 50) Sample.ground
             Sample.three).
Defined.

Lemma solve_rejects_implausible_offset_witness :
  eval (Sample.solve_with (Sample.reporting Sample.early) None None Sample.ground) Sample.four
  = Ok None.
Proof.
  apply (solve_rejects_implausible_offset _ _ _ _ _ _ _ _ _ _ _ _ _ Sample.early).
  - apply reporting_returns. left; reflexivity.
  - reflexivity.
  - left. reflexivity.
Defined.

Lemma solve_none_when_not_converged_witness :
  eval (Sample.solve_with (Sample.reporting Sample.stalled) (Some 10000) (Some 50)
          Sample.ground) Sample.four
  = Ok None.
Proof.
  apply (solve_none_when_not_converged _ _ _ _ _ _ _ _ _ _ _ _ _ Sample.stalled).
  - apply reporting_returns. right. exists 50. split; [ reflexivity | discriminate ].
  - reflexivity.
Defined.

Lemma solve_accepts_plausible_offset_witness :
  500000 < Sample.ecef_distance (position (Sample.rx 0 0)) (1000000, 0, Sample.radius) /\
  exists ecef_cov,
    eval (Sample.solve_with (Sample.reporting Sample.remote) None None Sample.ground)
      Sample.four
    = Ok (Some ((1000000, 0, Sample.radius), ecef_cov)).
Proof.
  split.
  - reflexivity.
  - apply (solve_accepts_plausible_offset _ _ _ _ _ _ _ _ _ _ _ _ _ Sample.remote).
    + apply reporting_returns. left; reflexivity.
    + reflexivity.
    + split; discriminate.
Defined.

Lemma solve_covariance_witness :
  exists cov,
    eval (Sample.solve_with (Sample.reporting Sample.good) None None Sample.ground)
      Sample.four
    = Ok (Some ((1500, 2000, Sample.radius + 10000), Some cov)) /\
    forall i j,
      entry cov i j = if ((i <? 3) && (j <? 3))%nat then entry Sample.h4 i j else None.
Proof.
  apply (solve_covariance _ _ _ _ _ _ _ _ _ _ _ _ _ Sample.good).
  - apply reporting_returns. left; reflexivity.
  - reflexivity.
  - split; discriminate.
Defined.




Lemma converter_in_order_witness :
  eval (pseudorange_converter Sample.sqrt Sample.Cair) Sample.four
  = Ok (0, map (datum_of Sample.sqrt Sample.Cair 0) Sample.four).
Proof.
  apply (converter_in_order Sample.sqrt Sample.Cair).
  repeat constructor; discriminate.
Defined.

(** C4, as stated, fails: a measurement with a negative variance makes
    [math.sqrt] raise, so that the converter yields no datum at all for
    this non-empty list, and [solve] raises the same exception. *)
Lemma converter_negative_variance :
  Sample.four_negative <> [] /\
  eval (pseudorange_converter Sample.sqrt Sample.Cair) Sample.four_negative
  = Raise (ValueError "math domain error") /\
  (forall out,
      eval (pseudorange_converter Sample.sqrt Sample.Cair) Sample.four_negative <> Ok out) /\
  eval (Sample.solve_with Sample.staying None None Sample.ground) Sample.four_negative
  = Raise (ValueError "math domain error").
Proof.
  split; [ discriminate | ]. split; [ reflexivity | ].
  split; [ intro out; discriminate | reflexivity ].
Qed.

Lemma residuals_sum_of_squares_witness :
  Forall (fun d : datum => ~ snd d == 0) Sample.fitting /\
  _residuals Sample.ecef_distance Sample.ecef2llh Sample.fitted Sample.fitting
    (Some 5000) (Some 10)
  = Ok (sum_of_squares
          (residual_vector Sample.ecef_distance Sample.ecef2llh
             (position_of Sample.fitted) (offset_of Sample.fitted) Sample.fitting
             (Some (5000, 10)))).
Proof.
  assert (Hsig : Forall (fun d : datum => ~ snd d == 0) Sample.fitting)
    by (repeat constructor; discriminate).
  split; [ exact Hsig | ].
  apply (proj1 (proj2 (residuals_sum_of_squares Sample.ecef_distance Sample.ecef2llh
                         Sample.fitted Sample.fitting Hsig))).
  discriminate.
Defined.

(** C3, as stated, fails: the objective returns no sum when it has to
    divide by zero or by a missing altitude error.  An altitude error of 0
    and a sigma of 0 make the division raise [ZeroDivisionError], and an
    altitude without its error makes it raise [TypeError]. *)
Lemma residuals_zero_divisor :
  _residuals Sample.ecef_distance Sample.ecef2llh (0, 0, Sample.radius + 4000, 0)
    [ ((0, 0, Sample.radius), 12, 2) ] (Some 5000) (Some 0)
  = Raise (ZeroDivisionError "float division by zero") /\
  _residuals Sample.ecef_distance Sample.ecef2llh (0, 0, Sample.radius + 4000, 0)
    [ ((0, 0, Sample.radius), 12, 0) ] None None
  = Raise (ZeroDivisionError "float division by zero") /\
  _residuals Sample.ecef_distance Sample.ecef2llh (0, 0, Sample.radius + 4000, 0)
    [ ((0, 0, Sample.radius), 12, 2) ] (Some 5000) None
  = Raise (TypeError "unsupported operand type(s) for /: 'float' and 'NoneType'").
Proof. repeat split. Qed.

(** ** Further properties of [_residuals] and [solve] *)

Lemma comprehension_each {A B : Type} (f : A -> outcome B) (l : list A) (bs : list B) :
  comprehension f l = Ok bs -> Forall2 (fun a b => f a = Ok b) l bs.
Proof.
  revert bs. induction l as [| a l IH]; simpl; intros bs H.
  - inversion H; subst. constructor.
  - destruct (f a) as [b | e] eqn:Ea; simpl in H; [ | discriminate ].
    destruct (comprehension f l) as [bs' | e]; simpl in H; [ | discriminate ].
    inversion H; subst. constructor; auto.
Qed.

Lemma slice_0_3_size (n : nat) (h : matrix) :
  (3 <= n)%nat -> square_of_size n h -> square_of_size 3 (slice_0_3 h).
Proof.
  intros Hn [Hrows Hcols]. unfold slice_0_3. split.
  - rewrite length_map, length_firstn. lia.
  - apply Forall_map. apply Forall_forall. intros row Hin.
    rewrite length_firstn.
    apply (In_nth _ _ []) in Hin. destruct Hin as [k [Hk Hrow]].
    rewrite length_firstn in Hk.
    assert (Hin : In row h).
    { rewrite <- Hrow. rewrite nth_firstn.
      assert (Hk3 : (k <? 3)%nat = true) by (apply Nat.ltb_lt; lia).
      rewrite Hk3. apply nth_In. lia. }
    rewrite Forall_forall in Hcols. rewrite (Hcols row Hin). lia.
Qed.

Lemma slice_0_3_symmetric (h : matrix) : symmetric h -> symmetric (slice_0_3 h).
Proof.
  intros Hs i j. rewrite !entry_slice_0_3, (andb_comm (j <? 3)%nat).
  destruct ((i <? 3) && (j <? 3))%nat; [ apply Hs | reflexivity ].
Qed.

Lemma Qsum_zero (a b : Q) : 0 <= a -> 0 <= b -> a + b == 0 -> a == 0 /\ b == 0.
Proof. intros Ha Hb H. split; lra. Qed.

Lemma Qsquare_zero (r : Q) : r * r == 0 <-> r == 0.
Proof.
  split; intro H.
  - destruct (Qmult_integral _ _ H); assumption.
  - rewrite H. reflexivity.
Qed.

Lemma sum_of_squares_zero (l : list Q) :
  sum_of_squares l == 0 <-> Forall (fun r => r == 0) l.
Proof.
  induction l as [| r l IH]; simpl.
  - split; [ constructor | reflexivity ].
  - split; intro H.
    + apply Qsum_zero in H;
        [ | apply Qsquare_nonneg | apply sum_of_squares_nonneg ].
      destruct H as [Hr Hl]. constructor; [ apply Qsquare_zero; exact Hr | apply IH; exact Hl ].
    + inversion H as [| r' l' Hr Hl]; subst.
      apply IH in Hl. rewrite Hl. apply Qsquare_zero in Hr. rewrite Hr. reflexivity.
Qed.

Lemma Qdiv_zero (a e : Q) : ~ e == 0 -> (a / e == 0 <-> a == 0).
Proof.
  intro He. split; intro H.
  - unfold Qdiv in H. destruct (Qmult_integral _ _ H) as [Ha | Hi]; [ exact Ha | ].
    exfalso. apply He.
    assert (H1 : e * / e == 1) by (apply Qmult_inv_r; exact He).
    rewrite Hi in H1. rewrite Qmult_0_r in H1. discriminate H1.
  - unfold Qdiv. rewrite H. apply Qmult_0_l.
Qed.

Section Further.

Variable sqrt : Q -> Q.
Variable Cair : Q.
Variable MIN_ALT MAX_ALT : Q.
Variable SOLVER_MAXFEV : Z.
Variable ecef_distance : ecef -> ecef -> Q.
Variable ecef2llh : ecef -> llh.
Variable llh2ecef : llh -> ecef.
Variable minimize : (vec4 -> outcome Q) -> vec4 -> Z -> outcome OptimizeResult.

Local Abbreviation residuals_ := (_residuals ecef_distance ecef2llh).
Local Abbreviation clamp_ := (clamp_initial_guess MIN_ALT MAX_ALT ecef2llh llh2ecef).
Local Abbreviation converter_ := (pseudorange_converter sqrt Cair).
Local Abbreviation solve_ :=
  (solve sqrt Cair MIN_ALT MAX_ALT SOLVER_MAXFEV ecef_distance ecef2llh llh2ecef minimize).
Local Abbreviation optimizer_returns_ :=
  (optimizer_returns sqrt Cair MIN_ALT MAX_ALT SOLVER_MAXFEV ecef_distance ecef2llh
     llh2ecef minimize).

(** *** Exceptions *)

Lemma pseudorange_datum_negative (base : Q) (m : measurement) (e : exn) :
  pseudorange_datum sqrt Cair base m = Raise e -> variance_of m < 0.
Proof.
  destruct m as [[r t] v]. unfold pseudorange_datum, math_sqrt, variance_of. simpl.
  destruct (Qltb v 0) eqn:Hv; simpl; [ intros _ | discriminate ].
  apply Qltb_true. exact Hv.
Qed.

Lemma comprehension_negative (base : Q) (l : list measurement) :
  Exists (fun m => variance_of m < 0) l ->
  comprehension (pseudorange_datum sqrt Cair base) l = Raise math_domain_error.
Proof.
  induction l as [| [[r t] v] l IH]; intro H.
  - inversion H.
  - simpl. unfold math_sqrt. destruct (Qltb v 0) eqn:Hv; simpl; [ reflexivity | ].
    rewrite IH; [ reflexivity | ].
    inversion H as [m l' Hm | m l' Hl]; subst; [ | exact Hl ].
    unfold variance_of in Hm. simpl in Hm.
    apply Qltb_true in Hm. congruence.
Qed.

(** X1: a negative variance among the measurements makes [solve] raise
    [ValueError('math domain error')] as soon as the input check is
    passed, whatever the optimizer is: it is not reached. *)
Theorem solve_negative_variance :
  forall (altitude altitude_error : option Q) (initial_guess : ecef) (measurements : store),
    (4 <= List.length measurements + match altitude with None => 0 | Some _ => 1 end)%nat ->
    Exists (fun m => variance_of m < 0) measurements ->
    eval (solve_ altitude altitude_error initial_guess) measurements
    = Raise math_domain_error.
Proof.
  intros altitude altitude_error initial_guess measurements Hn Hneg.
  rewrite eval_solve.
  apply Nat.ltb_ge in Hn. unfold constraints. rewrite Hn.
  rewrite eval_converter.
  destruct measurements as [| first rest]; [ inversion Hneg | ].
  cbv zeta. rewrite comprehension_negative by assumption. reflexivity.
Qed.

Lemma pseudorange_datum_ok (base : Q) (m : measurement) (d : datum) :
  pseudorange_datum sqrt Cair base m = Ok d -> d = datum_of sqrt Cair base m.
Proof.
  destruct m as [[r t] v]. unfold pseudorange_datum, datum_of, math_sqrt.
  destruct (Qltb v 0); simpl; intro H; inversion H; reflexivity.
Qed.

Lemma eval_converter_ok (measurements : store) (base : Q) (data : list datum) :
  eval converter_ measurements = Ok (base, data) ->
  exists first rest,
    measurements = first :: rest /\
    base = timestamp_of first /\
    comprehension (pseudorange_datum sqrt Cair base) measurements = Ok data.
Proof.
  rewrite eval_converter. destruct measurements as [| first rest]; [ discriminate | ].
  cbv zeta. destruct (comprehension _ (first :: rest)) as [ds | e] eqn:Hd; [ | discriminate ].
  intro H. inversion H; subst. exists first, rest. auto.
Qed.

Lemma converter_data (measurements : store) (base : Q) (data : list datum) :
  eval converter_ measurements = Ok (base, data) ->
  data = map (datum_of sqrt Cair base) measurements.
Proof.
  intro H. apply eval_converter_ok in H. destruct H as [first [rest [_ [_ Hd]]]].
  apply comprehension_each in Hd.
  induction Hd as [| m d l ds Hm _ IH]; [ reflexivity | ].
  simpl. rewrite <- IH. apply pseudorange_datum_ok in Hm. subst d. reflexivity.
Qed.

(** X3: what the objective raises.  If it raises, it raises the
    [ZeroDivisionError] of a division by a zero sigma or by a zero
    altitude error, or the [TypeError] of the division by a missing
    altitude error.  When no sigma is zero: an altitude without its error
    raises that [TypeError], an altitude with a zero error raises
    [ZeroDivisionError], and in every other case a number is returned. *)
Theorem residuals_raises_when :
  forall (state : vec4) (pseudorange_data : list datum) (altitude altitude_error : option Q),
    (forall e : exn,
        residuals_ state pseudorange_data altitude altitude_error = Raise e ->
        (e = zero_division /\ Exists (fun d => snd d == 0) pseudorange_data) \/
        (e = div_by_none /\ altitude <> None /\ altitude_error = None) \/
        (e = zero_division /\ altitude <> None /\
         exists z, altitude_error = Some z /\ z == 0)) /\
    (Forall (fun d => ~ snd d == 0) pseudorange_data ->
     (altitude <> None -> altitude_error = None ->
      residuals_ state pseudorange_data altitude altitude_error = Raise div_by_none) /\
     (altitude <> None -> (exists z, altitude_error = Some z /\ z == 0) ->
      residuals_ state pseudorange_data altitude altitude_error = Raise zero_division) /\
     (altitude = None \/ (exists z, altitude_error = Some z /\ ~ z == 0) ->
      exists v, residuals_ state pseudorange_data altitude altitude_error = Ok v)).
Proof.
  intros state pseudorange_data altitude altitude_error. split.
  - intros e H. eapply residuals_raise_cases; eauto.
  - intro Hsig. repeat split.
    + intros Ha Hae. subst altitude_error.
      unfold _residuals. destruct (unpack state) as [p off].
      rewrite (for_each_append_residual _ _ _ _ _ Hsig). cbn [obind].
      destruct altitude as [a |]; [ | congruence ].
      destruct (ecef2llh p) as [[lat lng] alt]. reflexivity.
    + intros Ha [z [Hae Hz]]. subst altitude_error.
      unfold _residuals. destruct (unpack state) as [p off].
      rewrite (for_each_append_residual _ _ _ _ _ Hsig). cbn [obind].
      destruct altitude as [a |]; [ | congruence ].
      destruct (ecef2llh p) as [[lat lng] alt].
      rewrite (float_div_zero _ _ Hz). reflexivity.
    + intro H. apply residuals_returns; assumption.
Qed.

(** X2: the only exceptions that leave [solve] are the error of the input
    check (fewer than 4 constraints), the domain error of [math.sqrt]
    (enough constraints, a negative variance), the [TypeError] of the
    objective (enough constraints, an altitude without its error) and the
    [ZeroDivisionError] of the objective (enough constraints, and a
    measurement whose sigma is zero or an altitude with a zero error).  In
    particular [measurements[0]] never raises [IndexError].  The optimizer
    is assumed to raise nothing of its own. *)
Theorem solve_raises_only :
  (forall f x0 n e, minimize f x0 n = Raise e -> exists v, f v = Raise e) ->
  forall (altitude altitude_error : option Q) (initial_guess : ecef)
         (measurements : store) (e : exn),
    eval (solve_ altitude altitude_error initial_guess) measurements = Raise e ->
    (e = not_enough /\ (constraints (List.length measurements) altitude < 4)%nat) \/
    (e = math_domain_error /\ (4 <= constraints (List.length measurements) altitude)%nat /\
     Exists (fun m => variance_of m < 0) measurements) \/
    (e = div_by_none /\ (4 <= constraints (List.length measurements) altitude)%nat /\
     altitude <> None /\ altitude_error = None) \/
    (e = zero_division /\ (4 <= constraints (List.length measurements) altitude)%nat /\
     (Exists (fun m => sqrt (variance_of m) * Cair == 0) measurements \/
      (altitude <> None /\ exists z, altitude_error = Some z /\ z == 0))).
Proof.
  intros Hmin altitude altitude_error initial_guess measurements e.
  rewrite eval_solve.
  destruct (constraints (List.length measurements) altitude <? 4)%nat eqn:Hn.
  - apply Nat.ltb_lt in Hn. intro H. inversion H. left. auto.
  - apply Nat.ltb_ge in Hn.
    destruct (eval converter_ measurements) as [[base data] | e'] eqn:Hc.
    + cbn [snd].
      destruct (minimize _ _ _) as [res | e'] eqn:Hm; [ discriminate | ].
      intro H. inversion H; subst e'. right; right.
      destruct (Hmin _ _ _ _ Hm) as [v Hv].
      apply residuals_raise_cases in Hv.
      destruct Hv as [[He Hex] | [[He [Ha Hae]] | [He [Ha Hz]]]].
      * right. split; [ exact He | ]. split; [ exact Hn | ]. left.
        apply converter_data in Hc. subst data.
        apply Exists_exists in Hex. destruct Hex as [d [Hin Hd]].
        apply in_map_iff in Hin. destruct Hin as [m [Hdm Hin]]. subst d.
        apply Exists_exists. exists m. split; [ exact Hin | ].
        destruct m as [[r t] var]. exact Hd.
      * left. auto.
      * right. split; [ exact He | ]. split; [ exact Hn | ]. right. auto.
    + intro H. inversion H; subst e'. right; left.
      rewrite eval_converter in Hc.
      destruct measurements as [| first rest];
        [ unfold constraints in Hn; destruct altitude; simpl in Hn; lia | ].
      cbv zeta in Hc.
      destruct (comprehension _ (first :: rest)) as [data | e'] eqn:Hd; [ discriminate | ].
      inversion Hc; subst e'.
      apply comprehension_raise in Hd. destruct Hd as [m [Hin Hm]].
      split; [ eapply pseudorange_datum_raise; eauto | ].
      split; [ exact Hn | ].
      apply Exists_exists. exists m. split; [ exact Hin | ].
      eapply pseudorange_datum_negative; eauto.
Qed.

(** *** What a returned value tells *)

Lemma eval_solve_ok (altitude altitude_error : option Q) (initial_guess : ecef)
    (measurements : store) (r : solution) :
  eval (solve_ altitude altitude_error initial_guess) measurements = Ok r ->
  exists res,
    optimizer_returns_ altitude altitude_error initial_guess measurements res /\
    r = validate res.
Proof.
  rewrite eval_solve.
  destruct (constraints (List.length measurements) altitude <? 4)%nat eqn:Hn;
    [ discriminate | ].
  apply Nat.ltb_ge in Hn.
  destruct (eval converter_ measurements) as [[base data] | e'] eqn:Hc; [ | discriminate ].
  cbn [snd].
  destruct (minimize _ _ _) as [res | e'] eqn:Hm; [ | discriminate ].
  intro H. inversion H; subst. exists res. split; [ | reflexivity ].
  split; [ exact Hn | ]. exists base, data. auto.
Qed.

(** X4: a solution that [solve] returns comes from an optimizer result
    that reported success with an offset in [0, 500000]; its position is
    the position part of that result and its covariance is the sliced
    inverse Hessian, or [None] when there is none. *)
Theorem solve_solution_sound :
  forall (altitude altitude_error : option Q) (initial_guess : ecef)
         (measurements : store) (ecef_pos : ecef) (ecef_cov : option matrix),
    eval (solve_ altitude altitude_error initial_guess) measurements
    = Ok (Some (ecef_pos, ecef_cov)) ->
    exists res,
      optimizer_returns_ altitude altitude_error initial_guess measurements res /\
      success res = true /\
      0 <= offset_of (x res) <= 500000 /\
      ecef_pos = position_of (x res) /\
      ecef_cov = option_map slice_0_3 (hess_inv res).
Proof.
  intros altitude altitude_error initial_guess measurements ecef_pos ecef_cov H.
  apply eval_solve_ok in H. destruct H as [res [Hret Hv]].
  exists res. split; [ exact Hret | ].
  unfold validate, offset_of, position_of in *.
  destruct (success res); [ | discriminate ].
  destruct (unpack (x res)) as [position_est offset_est]. cbn [fst snd].
  destruct (Qltb offset_est 0) eqn:Hlo; [ discriminate | ].
  destruct (Qltb 500000 offset_est) eqn:Hhi; [ discriminate | ].
  apply Qltb_false in Hlo, Hhi. simpl in Hv.
  destruct (hess_inv res); inversion Hv; subst; repeat split; auto.
Qed.

(** X5: when [solve] returns [None], the optimizer was reached and either
    did not report success or reported an offset below 0 or above
    500000; there is no other reason for [None]. *)
Theorem solve_none_reasons :
  forall (altitude altitude_error : option Q) (initial_guess : ecef) (measurements : store),
    eval (solve_ altitude altitude_error initial_guess) measurements = Ok None ->
    exists res,
      optimizer_returns_ altitude altitude_error initial_guess measurements res /\
      (success res = false \/ offset_of (x res) < 0 \/ 500000 < offset_of (x res)).
Proof.
  intros altitude altitude_error initial_guess measurements H.
  apply eval_solve_ok in H. destruct H as [res [Hret Hv]].
  exists res. split; [ exact Hret | ].
  unfold validate, offset_of in *.
  destruct (success res); [ right | left; reflexivity ].
  destruct (unpack (x res)) as [position_est offset_est]. cbn [snd].
  destruct (Qltb offset_est 0) eqn:Hlo; [ left; apply Qltb_true; exact Hlo | ].
  destruct (Qltb 500000 offset_est) eqn:Hhi; [ right; apply Qltb_true; exact Hhi | ].
  simpl in Hv. destruct (hess_inv res); discriminate.
Qed.

(** *** The covariance *)

(** X6: for an accepted result whose inverse Hessian is an n x n array
    with n >= 3 (BFGS on four unknowns gives a 4 x 4 one), the covariance
    that [solve] returns is a 3 x 3 array. *)
Theorem solve_covariance_shape :
  forall (altitude altitude_error : option Q) (initial_guess : ecef)
         (measurements : store) (res : OptimizeResult) (h : matrix) (n : nat),
    optimizer_returns_ altitude altitude_error initial_guess measurements res ->
    success res = true ->
    0 <= offset_of (x res) <= 500000 ->
    hess_inv res = Some h ->
    (3 <= n)%nat ->
    square_of_size n h ->
    exists cov,
      eval (solve_ altitude altitude_error initial_guess) measurements
      = Ok (Some (position_of (x res), Some cov)) /\
      square_of_size 3 cov.
Proof.
  intros altitude altitude_error initial_guess measurements res h n Hret Hs Hoff Hh Hn Hsq.
  exists (slice_0_3 h). split.
  - rewrite (eval_solve_returns _ _ _ _ _ _ _ _ _ _ _ _ _ _ Hret).
    rewrite (validate_accepted res Hs Hoff), Hh. reflexivity.
  - eapply slice_0_3_size; eauto.
Qed.

(** X7: for an accepted result whose inverse Hessian is symmetric, the
    covariance that [solve] returns is symmetric. *)
Theorem solve_covariance_symmetric :
  forall (altitude altitude_error : option Q) (initial_guess : ecef)
         (measurements : store) (res : OptimizeResult) (h : matrix),
    optimizer_returns_ altitude altitude_error initial_guess measurements res ->
    success res = true ->
    0 <= offset_of (x res) <= 500000 ->
    hess_inv res = Some h ->
    symmetric h ->
    exists cov,
      eval (solve_ altitude altitude_error initial_guess) measurements
      = Ok (Some (position_of (x res), Some cov)) /\
      symmetric cov.
Proof.
  intros altitude altitude_error initial_guess measurements res h Hret Hs Hoff Hh Hsym.
  exists (slice_0_3 h). split.
  - rewrite (eval_solve_returns _ _ _ _ _ _ _ _ _ _ _ _ _ _ Hret).
    rewrite (validate_accepted res Hs Hoff), Hh. reflexivity.
  - apply slice_0_3_symmetric. exact Hsym.
Qed.

(** *** The pseudoranges *)

(** X8: the datum of the first measurement has pseudorange 0: all
    pseudoranges are relative to the first reception. *)
Theorem converter_first_pseudorange_zero :
  forall (first : measurement) (rest : list measurement) (base : Q) (data : list datum),
    eval converter_ (first :: rest) = Ok (base, data) ->
    exists d ds,
      data = d :: ds /\
      fst (fst d) = position (receiver_of first) /\
      snd (fst d) == 0.
Proof.
  intros first rest base data H.
  apply eval_converter_ok in H. destruct H as [f [r [Hms [Hbase Hd]]]].
  inversion Hms; subst f r. clear Hms.
  apply comprehension_each in Hd. inversion Hd as [| m d l ds Hm Hl]; subst.
  exists d, ds. split; [ reflexivity | ].
  apply pseudorange_datum_ok in Hm. subst d.
  destruct first as [[r t] v]. unfold datum_of, receiver_of, timestamp_of. simpl.
  split; [ reflexivity | ring ].
Qed.

Lemma comprehension_shift (b c : Q) (l : list measurement) (data : list datum) :
  comprehension (pseudorange_datum sqrt Cair b) l = Ok data ->
  exists data',
    comprehension (pseudorange_datum sqrt Cair (b + c)) (shift_timestamps c l) = Ok data' /\
    Forall2 datum_equiv data data'.
Proof.
  revert data. induction l as [| [[r t] v] l IH]; simpl; intros data H.
  - inversion H; subst. exists []. split; [ reflexivity | constructor ].
  - unfold receiver_of, timestamp_of, variance_of. simpl.
    destruct (math_sqrt sqrt v) as [sigma | e]; simpl in *; [ | discriminate ].
    destruct (comprehension (pseudorange_datum sqrt Cair b) l) as [ds | e];
      simpl in H; [ | discriminate ].
    inversion H; subst. clear H.
    destruct (IH ds eq_refl) as [ds' [Hc Heq]].
    fold (shift_timestamps c l). rewrite Hc. simpl.
    eexists. split; [ reflexivity | ].
    constructor; [ | exact Heq ].
    repeat split; simpl. ring.
Qed.

(** X9: the epoch of the timestamps is arbitrary.  When the converter
    succeeds on a list of measurements, it succeeds on the same list with
    every timestamp moved by [c]; the base timestamp moves by [c] and the
    data are the same: same receiver positions, equal pseudoranges, same
    errors. *)
Theorem converter_shift_invariant :
  forall (c : Q) (measurements : store) (base : Q) (data : list datum),
    eval converter_ measurements = Ok (base, data) ->
    exists data',
      eval converter_ (shift_timestamps c measurements) = Ok (base + c, data') /\
      Forall2 datum_equiv data data'.
Proof.
  intros c measurements base data H.
  apply eval_converter_ok in H. destruct H as [first [rest [Hms [Hbase Hd]]]].
  subst measurements base.
  destruct (comprehension_shift _ c _ _ Hd) as [data' [Hc Heq]].
  exists data'. split; [ | exact Heq ].
  assert (E : eval converter_ (shift_timestamps c (first :: rest)) =
              match comprehension (pseudorange_datum sqrt Cair (timestamp_of first + c))
                      (shift_timestamps c (first :: rest)) with
              | Ok ds => Ok (timestamp_of first + c, ds)
              | Raise e => Raise e
              end)
    by (rewrite eval_converter; reflexivity).
  rewrite E, Hc. reflexivity.
Qed.

Lemma comprehension_nonneg (b : Q) (l : list measurement) (data : list datum) :
  0 <= Cair ->
  Forall (fun m => b <= timestamp_of m) l ->
  comprehension (pseudorange_datum sqrt Cair b) l = Ok data ->
  Forall (fun d => 0 <= snd (fst d)) data.
Proof.
  intros HC Hall Hd. apply comprehension_each in Hd.
  induction Hd as [| m d l ds Hm _ IH]; [ constructor | ].
  inversion Hall as [| m' l' Hb Hl]; subst.
  constructor; [ | apply IH; exact Hl ].
  apply pseudorange_datum_ok in Hm. subst d.
  destruct m as [[r t] v]. unfold datum_of, timestamp_of in *. simpl in *.
  apply Qmult_le_0_compat; [ lra | exact HC ].
Qed.

(** X10: when no measurement is earlier than the first one (as in a list
    sorted by timestamp) and the propagation speed is not negative, no
    pseudorange is negative. *)
Theorem converter_pseudoranges_nonneg :
  0 <= Cair ->
  forall (first : measurement) (rest : list measurement) (base : Q) (data : list datum),
    Forall (fun m => timestamp_of first <= timestamp_of m) rest ->
    eval converter_ (first :: rest) = Ok (base, data) ->
    Forall (fun d => 0 <= snd (fst d)) data.
Proof.
  intros HC first rest base data Hsorted H.
  apply eval_converter_ok in H. destruct H as [f [r [Hms [Hbase Hd]]]].
  inversion Hms; subst f r. clear Hms. subst base.
  apply (comprehension_nonneg (timestamp_of first) (first :: rest)); auto.
  constructor; [ apply Qle_refl | exact Hsorted ].
Qed.

(** *** The clamp *)

Lemma clamp_unfold (initial_guess : ecef) (glat glng galt : Q) :
  ecef2llh initial_guess = (glat, glng, galt) ->
  MIN_ALT <= MAX_ALT ->
  clamp_ initial_guess =
  if Qltb galt MIN_ALT then llh2ecef (glat, glng, MIN_ALT)
  else if Qltb MAX_ALT galt then llh2ecef (glat, glng, MAX_ALT)
  else initial_guess.
Proof.
  intros Hllh Hband. unfold clamp_initial_guess. rewrite Hllh.
  destruct (Qltb galt MIN_ALT) eqn:Hlo.
  - apply Qltb_false in Hband. rewrite Hband. reflexivity.
  - destruct (Qltb MAX_ALT galt); reflexivity.
Qed.

Lemma clamp_fixed (initial_guess : ecef) :
  MIN_ALT <= geodetic_height ecef2llh initial_guess <= MAX_ALT ->
  clamp_ initial_guess = initial_guess.
Proof.
  unfold geodetic_height, clamp_initial_guess.
  destruct (ecef2llh initial_guess) as [[glat glng] galt]. cbn [snd].
  intros [Hlo Hhi]. apply Qltb_false in Hlo, Hhi. rewrite Hlo, Hhi. reflexivity.
Qed.

(** X11: when [MIN_ALT <= MAX_ALT] and converting a geodetic position to
    ECEF and back gives its altitude again, the clamped guess has its
    altitude in [MIN_ALT, MAX_ALT], and clamping it once more changes
    nothing. *)
Theorem clamp_in_band :
  MIN_ALT <= MAX_ALT ->
  (forall lat lng alt, geodetic_height ecef2llh (llh2ecef (lat, lng, alt)) == alt) ->
  forall initial_guess : ecef,
    MIN_ALT <= geodetic_height ecef2llh (clamp_ initial_guess) <= MAX_ALT /\
    clamp_ (clamp_ initial_guess) = clamp_ initial_guess.
Proof.
  intros Hband Hrt initial_guess.
  assert (Hin : MIN_ALT <= geodetic_height ecef2llh (clamp_ initial_guess) <= MAX_ALT).
  { destruct (ecef2llh initial_guess) as [[glat glng] galt] eqn:Hllh.
    rewrite (clamp_unfold _ _ _ _ Hllh Hband).
    destruct (Qltb galt MIN_ALT) eqn:Hlo.
    - rewrite Hrt. split; [ apply Qle_refl | exact Hband ].
    - destruct (Qltb MAX_ALT galt) eqn:Hhi.
      + rewrite Hrt. split; [ exact Hband | apply Qle_refl ].
      + unfold geodetic_height. rewrite Hllh. cbn [snd].
        apply Qltb_false in Hlo, Hhi. auto. }
  split; [ exact Hin | apply clamp_fixed; exact Hin ].
Qed.

(** *** The minimum of the objective *)

Lemma residual_zero (position : ecef) (offset : Q) (d : datum) :
  ~ snd d == 0 ->
  (pseudorange_residual ecef_distance position offset d == 0 <->
   explains ecef_distance position offset d).
Proof.
  destruct d as [[rp pr] sigma]. unfold pseudorange_residual, explains. cbn [snd].
  intro He. rewrite (Qdiv_zero _ _ He). split; intro H; lra.
Qed.

Lemma residuals_zero_data (position : ecef) (offset : Q) (data : list datum) :
  Forall (fun d => ~ snd d == 0) data ->
  (Forall (fun r => r == 0) (map (pseudorange_residual ecef_distance position offset) data) <->
   Forall (explains ecef_distance position offset) data).
Proof.
  induction 1 as [| d l Hd _ IH]; simpl.
  - split; constructor.
  - split; intro H; inversion H; subst; constructor;
      try (apply IH; assumption); apply (residual_zero _ _ _ Hd); assumption.
Qed.

(** X12: with non-zero errors, the objective is 0 exactly at the states
    that explain every datum (measured pseudorange = distance to the
    receiver - offset) and, when an altitude is given, whose geodetic
    height is that altitude. *)
Theorem residuals_zero_iff :
  forall (state : vec4) (pseudorange_data : list datum),
    Forall (fun d => ~ snd d == 0) pseudorange_data ->
    let position := position_of state in
    let offset := offset_of state in
    (forall (altitude_error : option Q) (v : Q),
        residuals_ state pseudorange_data None altitude_error = Ok v ->
        (v == 0 <-> Forall (explains ecef_distance position offset) pseudorange_data)) /\
    (forall (altitude altitude_error v : Q),
        ~ altitude_error == 0 ->
        residuals_ state pseudorange_data (Some altitude) (Some altitude_error) = Ok v ->
        (v == 0 <->
         Forall (explains ecef_distance position offset) pseudorange_data /\
         altitude == geodetic_height ecef2llh position)).
Proof.
  intros state pseudorange_data Hsig position offset. subst position offset.
  unfold _residuals, position_of, offset_of.
  destruct (unpack state) as [position offset]. cbn [fst snd].
  rewrite (for_each_append_residual _ _ _ _ _ Hsig). cbn [app obind]. split.
  - intros altitude_error v H. inversion H; subst v. clear H.
    rewrite np_sum_square, sum_of_squares_zero. apply residuals_zero_data. exact Hsig.
  - intros altitude altitude_error v He H.
    unfold geodetic_height.
    destruct (ecef2llh position) as [[lat lng] alt]. cbn [snd] in *.
    rewrite (float_div_ok _ _ He) in H. cbn [obind] in H.
    inversion H; subst v. clear H.
    rewrite np_sum_square, sum_of_squares_zero, Forall_app.
    rewrite (residuals_zero_data _ _ _ Hsig).
    split; intros [Hd Ha]; (split; [ exact Hd | ]).
    + inversion Ha as [| r l Hr _]; subst. apply (proj1 (Qdiv_zero _ _ He)) in Hr. lra.
    + constructor; [ | constructor ]. apply (proj2 (Qdiv_zero _ _ He)). lra.
Qed.

(** *** The altitude error *)

(** X13: without an altitude, [altitude_error] is never looked at: for an
    optimizer that depends on the objective only through its values,
    [solve] behaves alike for every [altitude_error]. *)
Theorem solve_ignores_error_without_altitude :
  (forall f g x0 n, (forall v, f v = g v) -> minimize f x0 n = minimize g x0 n) ->
  forall (altitude_error altitude_error' : option Q) (initial_guess : ecef)
         (measurements : store),
    solve_ None altitude_error initial_guess measurements =
    solve_ None altitude_error' initial_guess measurements.
Proof.
  intros Hext altitude_error altitude_error' initial_guess measurements.
  unfold solve, bind.
  destruct (len_measurements measurements) as [[n | e] s]; [ | reflexivity ].
  destruct (constraints n None <? 4)%nat; [ reflexivity | ].
  destruct (converter_ s) as [[bp | e] s']; [ | reflexivity ].
  unfold lift.
  rewrite (Hext (fun v => residuals_ v (snd bp) None altitude_error)
                (fun v => residuals_ v (snd bp) None altitude_error')); [ reflexivity | ].
  intro v. unfold _residuals. destruct (unpack v). reflexivity.
Qed.

End Further.

(** ** The further statements at concrete inputs *)

Lemma sample_round_trip (lat lng alt : Q) :
  geodetic_height Sample.ecef2llh (Sample.llh2ecef (lat, lng, alt)) == alt.
Proof. unfold geodetic_height, Sample.ecef2llh, Sample.llh2ecef. simpl. ring. Qed.

Lemma s4_symmetric : symmetric Sample.s4.
Proof.
  intros i j.
  do 4 (destruct i as [| i];
        [ do 4 (destruct j as [| j]; [ reflexivity | ]); destruct j; reflexivity | ]).
  do 4 (destruct j as [| j]; [ destruct i; reflexivity | ]).
  destruct i, j; reflexivity.
Qed.

Lemma h4_square : square_of_size 4 Sample.h4.
Proof. split; [ reflexivity | repeat constructor ]. Qed.

Lemma four_data :
  eval (pseudorange_converter Sample.sqrt Sample.Cair) Sample.four
  = Ok (0, map (datum_of Sample.sqrt Sample.Cair 0) Sample.four).
Proof. reflexivity. Qed.

Lemma solve_negative_variance_witness :
  eval (Sample.solve_with Sample.staying None None Sample.ground) Sample.four_negative
  = Raise math_domain_error.
Proof.
  apply (solve_negative_variance Sample.sqrt Sample.Cair Sample.MIN_ALT Sample.MAX_ALT
           Sample.SOLVER_MAXFEV Sample.ecef_distance Sample.ecef2llh Sample.llh2ecef
           Sample.staying).
  - simpl. lia.
  - do 2 apply Exists_cons_tl. apply Exists_cons_hd. reflexivity.
Defined.

Lemma solve_raises_only_witness :
  (zero_division = not_enough /\ (constraints 3 (Some 10000%Q) < 4)%nat) \/
  (zero_division = math_domain_error /\ (4 <= constraints 3 (Some 10000%Q))%nat /\
   Exists (fun m => variance_of m < 0) Sample.three) \/
  (zero_division = div_by_none /\ (4 <= constraints 3 (Some 10000%Q))%nat /\
   Some 10000 <> None /\ Some 0 = None) \/
  (zero_division = zero_division /\ (4 <= constraints 3 (Some 10000%Q))%nat /\
   (Exists (fun m => Sample.sqrt (variance_of m) * Sample.Cair == 0) Sample.three \/
    (Some 10000 <> None /\ exists z, Some 0 = Some z /\ z == 0))).
Proof.
  apply (solve_raises_only Sample.sqrt Sample.Cair Sample.MIN_ALT Sample.MAX_ALT
           Sample.SOLVER_MAXFEV Sample.ecef_distance Sample.ecef2llh Sample.llh2ecef
           Sample.staying staying_propagates (Some 10000) (Some 0) Sample.ground
           Sample.three).
  reflexivity.
Defined.

Lemma fitting_nonzero : Forall (fun d : datum => ~ snd d == 0) Sample.fitting.
Proof. repeat constructor; discriminate. Qed.

Lemma residuals_raises_when_witness :
  _residuals Sample.ecef_distance Sample.ecef2llh Sample.fitted Sample.fitting
    (Some 5000) None
  = Raise div_by_none /\
  _residuals Sample.ecef_distance Sample.ecef2llh Sample.fitted Sample.fitting
    (Some 5000) (Some 0)
  = Raise zero_division.
Proof.
  destruct (proj2 (residuals_raises_when Sample.ecef_distance Sample.ecef2llh
                     Sample.fitted Sample.fitting (Some 5000) None) fitting_nonzero)
    as [Hnone _].
  destruct (proj2 (residuals_raises_when Sample.ecef_distance Sample.ecef2llh
                     Sample.fitted Sample.fitting (Some 5000) (Some 0)) fitting_nonzero)
    as [_ [Hzero _]].
  split.
  - apply Hnone; [ discriminate | reflexivity ].
  - apply Hzero; [ discriminate | ]. exists 0. split; reflexivity.
Defined.

Lemma solve_solution_sound_witness :
  exists res,
    optimizer_returns Sample.sqrt Sample.Cair Sample.MIN_ALT Sample.MAX_ALT
      Sample.SOLVER_MAXFEV Sample.ecef_distance Sample.ecef2llh Sample.llh2ecef
      Sample.staying None None Sample.ground Sample.four res /\
    success res = true /\
    0 <= offset_of (x res) <= 500000 /\
    Sample.ground = position_of (x res) /\
    None = option_map slice_0_3 (hess_inv res).
Proof.
  apply (solve_solution_sound Sample.sqrt Sample.Cair Sample.MIN_ALT Sample.MAX_ALT
           Sample.SOLVER_MAXFEV Sample.ecef_distance Sample.ecef2llh Sample.llh2ecef
           Sample.staying None None Sample.ground Sample.four).
  reflexivity.
Defined.

Lemma solve_none_reasons_witness :
  exists res,
    optimizer_returns Sample.sqrt Sample.Cair Sample.MIN_ALT Sample.MAX_ALT
      Sample.SOLVER_MAXFEV Sample.ecef_distance Sample.ecef2llh Sample.llh2ecef
      (Sample.reporting Sample.late) None None Sample.ground Sample.four res /\
    (success res = false \/ offset_of (x res) < 0 \/ 500000 < offset_of (x res)).
Proof.
  apply (solve_none_reasons Sample.sqrt Sample.Cair Sample.MIN_ALT Sample.MAX_ALT
           Sample.SOLVER_MAXFEV Sample.ecef_distance Sample.ecef2llh Sample.llh2ecef
           (Sample.reporting Sample.late) None None Sample.ground Sample.four).
  reflexivity.
Defined.

Lemma solve_covariance_shape_witness :
  exists cov,
    eval (Sample.solve_with (Sample.reporting Sample.good) None None Sample.ground)
      Sample.four
    = Ok (Some ((1500, 2000, Sample.radius + 10000), Some cov)) /\
    square_of_size 3 cov.
Proof.
  apply (solve_covariance_shape _ _ _ _ _ _ _ _ _ _ _ _ _ Sample.good Sample.h4 4).
  - apply reporting_returns. left; reflexivity.
  - reflexivity.
  - split; discriminate.
  - reflexivity.
  - lia.
  - exact h4_square.
Defined.

Lemma solve_covariance_symmetric_witness :
  exists cov,
    eval (Sample.solve_with (Sample.reporting Sample.balanced) None None Sample.ground)
      Sample.four
    = Ok (Some ((1500, 2000, Sample.radius + 10000), Some cov)) /\
    symmetric cov.
Proof.
  apply (solve_covariance_symmetric _ _ _ _ _ _ _ _ _ _ _ _ _ Sample.balanced Sample.s4).
  - apply reporting_returns. left; reflexivity.
  - reflexivity.
  - split; discriminate.
  - reflexivity.
  - exact s4_symmetric.
Defined.

Lemma converter_first_pseudorange_zero_witness :
  exists d ds,
    map (datum_of Sample.sqrt Sample.Cair 0) Sample.four = d :: ds /\
    fst (fst d) = (0, 0, Sample.radius) /\
    snd (fst d) == 0.
Proof.
  exact (converter_first_pseudorange_zero Sample.sqrt Sample.Cair
           (Sample.rx 0 0, 0, 1e-12) (tl Sample.four) 0
           (map (datum_of Sample.sqrt Sample.Cair 0) Sample.four) four_data).
Defined.

Lemma converter_shift_invariant_witness :
  exists data',
    eval (pseudorange_converter Sample.sqrt Sample.Cair) (shift_timestamps 5 Sample.four)
    = Ok (0 + 5, data') /\
    Forall2 datum_equiv (map (datum_of Sample.sqrt Sample.Cair 0) Sample.four) data'.
Proof.
  exact (converter_shift_invariant Sample.sqrt Sample.Cair 5 Sample.four 0
           (map (datum_of Sample.sqrt Sample.Cair 0) Sample.four) four_data).
Defined.

Lemma converter_pseudoranges_nonneg_witness :
  Forall (fun d => 0 <= snd (fst d)) (map (datum_of Sample.sqrt Sample.Cair 0) Sample.four).
Proof.
  apply (converter_pseudoranges_nonneg Sample.sqrt Sample.Cair) with
    (first := (Sample.rx 0 0, 0, 1e-12)) (rest := tl Sample.four) (base := 0).
  - discriminate.
  - repeat constructor; discriminate.
  - exact four_data.
Defined.

Lemma clamp_in_band_witness :
  Sample.MIN_ALT
    <= geodetic_height Sample.ecef2llh
         (clamp_initial_guess Sample.MIN_ALT Sample.MAX_ALT Sample.ecef2llh
            Sample.llh2ecef Sample.centre)
    <= Sample.MAX_ALT /\
  clamp_initial_guess Sample.MIN_ALT Sample.MAX_ALT Sample.ecef2llh Sample.llh2ecef
    (clamp_initial_guess Sample.MIN_ALT Sample.MAX_ALT Sample.ecef2llh Sample.llh2ecef
       Sample.centre)
  = clamp_initial_guess Sample.MIN_ALT Sample.MAX_ALT Sample.ecef2llh Sample.llh2ecef
      Sample.centre.
Proof.
  apply (clamp_in_band Sample.MIN_ALT Sample.MAX_ALT Sample.ecef2llh Sample.llh2ecef).
  - discriminate.
  - exact sample_round_trip.
Defined.

Lemma residuals_zero_iff_witness :
  exists v,
    _residuals Sample.ecef_distance Sample.ecef2llh Sample.fitted Sample.fitting None None
    = Ok v /\
    (v == 0 <->
     Forall (explains Sample.ecef_distance (position_of Sample.fitted)
               (offset_of Sample.fitted)) Sample.fitting).
Proof.
  eexists. split; [ reflexivity | ].
  apply (proj1 (residuals_zero_iff Sample.ecef_distance Sample.ecef2llh Sample.fitted
                  Sample.fitting
                  ltac:(repeat constructor; discriminate)) None).
  reflexivity.
Defined.

Example fitted_has_objective_zero :
  obind (_residuals Sample.ecef_distance Sample.ecef2llh Sample.fitted Sample.fitting
           None None)
        (fun v => Ok (Qred v))
  = Ok 0.
Proof. reflexivity. Qed.

Lemma staying_extensional :
  forall f g x0 n, (forall v, f v = g v) -> Sample.staying f x0 n = Sample.staying g x0 n.
Proof. intros f g x0 n H. unfold Sample.staying. rewrite H. reflexivity. Qed.

Lemma solve_ignores_error_without_altitude_witness :
  Sample.solve_with Sample.staying None (Some 50) Sample.ground Sample.four
  = Sample.solve_with Sample.staying None None Sample.ground Sample.four.
Proof.
  apply (solve_ignores_error_without_altitude Sample.sqrt Sample.Cair Sample.MIN_ALT
           Sample.MAX_ALT Sample.SOLVER_MAXFEV Sample.ecef_distance Sample.ecef2llh
           Sample.llh2ecef Sample.staying).
  exact staying_extensional.
Defined.
